(** * kalman_factory_filter.h: the build-time Kalman filter factory

    The header [Kalman/kalman_factory_filter.h] is included once per filter
    instance, after the three macros [KALMAN_NAME], [KALMAN_NUM_STATES] and
    [KALMAN_NUM_INPUTS] have been defined.  It checks them, derives the
    matrix dimensions and the identifiers of the instance, declares the
    static buffers and the filter structure, and defines the parameterless
    initialisation function.

    The embedding follows the header from top to bottom.  One inclusion is
    a computation in a small monad that threads the translation output
    (the [#pragma message] notes and the declarations, in source order) and
    stops at the first fatal diagnostic ([#error], or a controlling
    expression the preprocessor cannot evaluate): a translation unit that
    reaches an [#error] is never translated successfully, so whatever
    follows it in the header yields nothing.  The bound of each array is
    kept as the pair of tokens the declaration multiplies; its value is
    computed as the C constant expression it is, for a target with a
    32-bit [int]. *)

From Stdlib Require Import ZArith String Ascii List Lia Bool DecimalString.
Import ListNotations.

Open Scope string_scope.
Open Scope Z_scope.

(** ** Preprocessing tokens and the macro environment *)

(** The replacement list of a dimension macro, taken as one token: an
    integer constant (with its sign), an identifier that is not itself a
    macro, or a floating constant. *)
Inductive pp_token : Type :=
| PPInteger (value : Z)
| PPIdentifier (spelling : string)
| PPFloating (spelling : string).

(** The macros the header reads; [None] is "not defined". *)
Record macro_env : Type := MacroEnv {
  env_KALMAN_NAME : option string;
  env_KALMAN_NUM_STATES : option pp_token;
  env_KALMAN_NUM_INPUTS : option pp_token
}.

(** Value of a token inside the controlling expression of [#if] / [#elif]
    (C99 6.10.1): after macro replacement every remaining identifier is
    replaced by 0; the expression must be an integer constant expression,
    so a floating constant has no value there. *)
Definition if_value (t : pp_token) : option Z :=
  match t with
  | PPInteger z => Some z
  | PPIdentifier _ => Some 0
  | PPFloating _ => None
  end.

(** Spelling of a token, as the [#] operator produces it. *)
Definition spelling_of (t : pp_token) : string :=
  match t with
  | PPInteger z => NilZero.string_of_int (Z.to_int z)
  | PPIdentifier s => s
  | PPFloating s => s
  end.

(** ** What a translation produces *)

(** Fatal diagnostics. *)
Inductive diagnostic : Type :=
| ErrorDirective (message : string)
| InvalidIfExpression (token : pp_token).

(** Arguments of the generated call. [NullPointer] is
    [((matrix_data_t* )0)]. *)
Inductive c_expr : Type :=
| AddressOf (ident : string)
| Constant (token : pp_token)
| Symbol (ident : string)
| NullPointer.

Inductive c_stmt : Type :=
| Call (callee : string) (args : list c_expr).

(** Items of the translation output.
    - [StaticArray id r c] is [static matrix_data_t id[r * c];]
    - [StaticStruct id] is [static kalman_t id;]
    - [InlineFunction id ps body] is [STATIC_INLINE id(ps) { body }] *)
Inductive emitted : Type :=
| PragmaMessage (text : string)
| StaticArray (ident : string) (rows cols : pp_token)
| StaticStruct (ident : string)
| InlineFunction (ident : string) (params : list string) (body : list c_stmt).

(** ** The translation monad *)

Definition PP (A : Type) : Type :=
  list emitted -> list emitted * (diagnostic + A).

Definition ret {A : Type} (a : A) : PP A :=
  fun out => (out, inr a).

Definition bind {A B : Type} (m : PP A) (k : A -> PP B) : PP B :=
  fun out =>
    match m out with
    | (out', inl d) => (out', inl d)
    | (out', inr a) => k a out'
    end.

Definition fatal {A : Type} (d : diagnostic) : PP A :=
  fun out => (out, inl d).

Definition emit (e : emitted) : PP unit :=
  fun out => ((out ++ [e])%list, inr tt).

Notation "x <- m ;; k" := (bind m (fun x => k))
  (at level 61, m at next level, right associativity).
Notation "m ;;; k" := (bind m (fun _ => k))
  (at level 61, right associativity).

Definition pp_error {A : Type} (message : string) : PP A :=
  fatal (ErrorDirective message).

Definition pragma_message (text : string) : PP unit :=
  emit (PragmaMessage text).

(** Evaluation of a one-token controlling expression. *)
Definition pp_if (t : pp_token) : PP Z :=
  match if_value t with
  | Some v => ret v
  | None => fatal (InvalidIfExpression t)
  end.

(** ** Check for inputs (lines 64-78) *)

Definition check_KALMAN_NAME (env : macro_env) : PP string :=
  match env_KALMAN_NAME env with
  | None =>
      pp_error "KALMAN_NAME needs to be defined prior to inclusion of this file."
  | Some name => ret name
  end.

Definition check_KALMAN_NUM_STATES (env : macro_env) : PP pp_token :=
  match env_KALMAN_NUM_STATES env with
  | None =>
      pp_error "KALMAN_NUM_STATES needs to be defined prior to inclusion of this file."
  | Some t =>
      v <- pp_if t ;;
      if v <=? 0
      then pp_error "KALMAN_NUM_STATES must be a positive integer"
      else ret t
  end.

Definition check_KALMAN_NUM_INPUTS (env : macro_env) : PP pp_token :=
  match env_KALMAN_NUM_INPUTS env with
  | None =>
      pp_error "KALMAN_NUM_INPUTS needs to be defined prior to inclusion of this file."
  | Some t =>
      v <- pp_if t ;;
      if v <? 0
      then pp_error "KALMAN_NUM_INPUTS must be a positive integer or zero if no inputs are used"
      else ret t
  end.

(** ** Name helper macros (lines 106-125) *)

Definition STRINGIFY (t : pp_token) : string := spelling_of t.

Definition __CONCAT (x y : string) : string := x ++ y.

Definition KALMAN_FILTER_BASENAME_HELPER (name : string) : string :=
  __CONCAT "kalman_filter_" name.

Definition KALMAN_BASENAME_HELPER (basename : string) : string :=
  __CONCAT basename "_".

Definition double_quote : string := String "034"%char EmptyString.

(** ** One instantiation (lines 84-191), the three macros being defined *)

Section Instance.

Variable KALMAN_NAME : string.
Variables KALMAN_NUM_STATES KALMAN_NUM_INPUTS : pp_token.

(** Prepare dimensions. *)
Definition __KALMAN_A_ROWS : pp_token := KALMAN_NUM_STATES.
Definition __KALMAN_A_COLS : pp_token := KALMAN_NUM_STATES.

Definition __KALMAN_P_ROWS : pp_token := KALMAN_NUM_STATES.
Definition __KALMAN_P_COLS : pp_token := KALMAN_NUM_STATES.

Definition __KALMAN_x_ROWS : pp_token := KALMAN_NUM_STATES.
Definition __KALMAN_x_COLS : pp_token := PPInteger 1.

Definition __KALMAN_B_ROWS : pp_token := KALMAN_NUM_STATES.
Definition __KALMAN_B_COLS : pp_token := KALMAN_NUM_INPUTS.

Definition __KALMAN_u_ROWS : pp_token := KALMAN_NUM_INPUTS.
Definition __KALMAN_u_COLS : pp_token := PPInteger 1.

Definition __KALMAN_Q_ROWS : pp_token := KALMAN_NUM_INPUTS.
Definition __KALMAN_Q_COLS : pp_token := KALMAN_NUM_INPUTS.

(** Name macros.  [KALMAN_BUFFER_NAME] and [KALMAN_FUNCTION_NAME] join the
    expansion of [KALMAN_BASENAME_HELPER(KALMAN_FILTER_BASENAME)] to what
    follows the [##] operators, which gives the identifiers the comment
    at the head of the file announces ([kalman_filter_acceleration_A_buffer],
    [kalman_filter_acceleration_init]). *)
Definition KALMAN_FILTER_BASENAME : string :=
  KALMAN_FILTER_BASENAME_HELPER KALMAN_NAME.

Definition KALMAN_BUFFER_NAME (element : string) : string :=
  KALMAN_BASENAME_HELPER KALMAN_FILTER_BASENAME ++ element ++ "_buffer".

Definition KALMAN_FUNCTION_NAME (name : string) : string :=
  KALMAN_BASENAME_HELPER KALMAN_FILTER_BASENAME ++ name.

Definition KALMAN_STRUCT_NAME : string := KALMAN_FILTER_BASENAME.

(** Construct Kalman filter. *)
Definition __KALMAN_BUFFER_A : string := KALMAN_BUFFER_NAME "A".
Definition __KALMAN_BUFFER_P : string := KALMAN_BUFFER_NAME "P".
Definition __KALMAN_BUFFER_x : string := KALMAN_BUFFER_NAME "x".

(** Lines 148-174: the input buffers, or the null pointer in their
    place.  The result is the triple
    [(__KALMAN_BUFFER_B, __KALMAN_BUFFER_Q, __KALMAN_BUFFER_u)]. *)
Definition input_buffers : PP (c_expr * c_expr * c_expr) :=
  v <- pp_if KALMAN_NUM_INPUTS ;;
  if v >? 0 then
    let __KALMAN_BUFFER_B := KALMAN_BUFFER_NAME "B" in
    let __KALMAN_BUFFER_Q := KALMAN_BUFFER_NAME "Q" in
    let __KALMAN_BUFFER_u := KALMAN_BUFFER_NAME "u" in
    pragma_message ("Creating Kalman filter B buffer: " ++ __KALMAN_BUFFER_B) ;;;
    emit (StaticArray __KALMAN_BUFFER_B __KALMAN_B_ROWS __KALMAN_B_COLS) ;;;
    pragma_message ("Creating Kalman filter Q buffer: " ++ __KALMAN_BUFFER_Q) ;;;
    emit (StaticArray __KALMAN_BUFFER_Q __KALMAN_Q_ROWS __KALMAN_Q_COLS) ;;;
    pragma_message ("Creating Kalman filter u buffer: " ++ __KALMAN_BUFFER_u) ;;;
    emit (StaticArray __KALMAN_BUFFER_u __KALMAN_x_ROWS __KALMAN_u_COLS) ;;;
    ret (Symbol __KALMAN_BUFFER_B, Symbol __KALMAN_BUFFER_Q, Symbol __KALMAN_BUFFER_u)
  else
    pragma_message "Creating Kalman filter B buffer: skipped (zero inputs)" ;;;
    pragma_message "Creating Kalman filter Q buffer: skipped (zero inputs)" ;;;
    pragma_message "Creating Kalman filter u buffer: skipped (zero inputs)" ;;;
    ret (NullPointer, NullPointer, NullPointer).

Definition instantiate : PP unit :=
  pragma_message
    ("** Instantiating Kalman filter " ++ double_quote ++ KALMAN_NAME
       ++ double_quote ++ " with " ++ STRINGIFY KALMAN_NUM_STATES
       ++ " states and " ++ STRINGIFY KALMAN_NUM_INPUTS ++ " inputs") ;;;
  pragma_message ("Creating Kalman filter A buffer: " ++ __KALMAN_BUFFER_A) ;;;
  emit (StaticArray __KALMAN_BUFFER_A __KALMAN_A_ROWS __KALMAN_A_COLS) ;;;
  pragma_message ("Creating Kalman filter P buffer: " ++ __KALMAN_BUFFER_P) ;;;
  emit (StaticArray __KALMAN_BUFFER_P __KALMAN_P_ROWS __KALMAN_P_COLS) ;;;
  pragma_message ("Creating Kalman filter x buffer: " ++ __KALMAN_BUFFER_x) ;;;
  emit (StaticArray __KALMAN_BUFFER_x __KALMAN_x_ROWS __KALMAN_x_COLS) ;;;
  bufs <- input_buffers ;;
  let '(__KALMAN_BUFFER_B, __KALMAN_BUFFER_Q, __KALMAN_BUFFER_u) := bufs in
  pragma_message ("Creating Kalman filter structure: " ++ KALMAN_STRUCT_NAME) ;;;
  emit (StaticStruct KALMAN_STRUCT_NAME) ;;;
  pragma_message
    ("Creating Kalman filter initialization function: "
       ++ KALMAN_FUNCTION_NAME "init()") ;;;
  emit (InlineFunction (KALMAN_FUNCTION_NAME "init") []
          [Call "kalman_filter_initialize"
             [AddressOf KALMAN_STRUCT_NAME;
              Constant KALMAN_NUM_STATES;
              Constant KALMAN_NUM_INPUTS;
              Symbol __KALMAN_BUFFER_A;
              Symbol __KALMAN_BUFFER_x;
              __KALMAN_BUFFER_B;
              __KALMAN_BUFFER_u;
              Symbol __KALMAN_BUFFER_P;
              __KALMAN_BUFFER_Q]]).

End Instance.

(** ** The whole header *)

Definition kalman_factory_filter (env : macro_env) : PP unit :=
  name <- check_KALMAN_NAME env ;;
  num_states <- check_KALMAN_NUM_STATES env ;;
  num_inputs <- check_KALMAN_NUM_INPUTS env ;;
  instantiate name num_states num_inputs.

(** Translating a unit that defines the three macros and includes the
    header: the output starts empty. *)
Definition factory (env : macro_env) : list emitted * (diagnostic + unit) :=
  kalman_factory_filter env [].

Definition define (name : string) (num_states num_inputs : pp_token) : macro_env :=
  MacroEnv (Some name) (Some num_states) (Some num_inputs).

(** ** Reading the translation output *)

(** Value of a token as an integer constant expression of the C
    translation proper (an array bound). *)
Definition constant_value (t : pp_token) : option Z :=
  match t with
  | PPInteger z => Some z
  | _ => None
  end.

(** The bound [rows * cols] of an array is a C integer constant
    expression, computed in the type of its operands.  The widths are
    those of a target with a 32-bit [int] and a 64-bit [long long]
    ([long] is one or the other). *)
Definition int_bits : Z := 32.
Definition long_long_bits : Z := 64.

(** [z] is a value of the signed type of the given width. *)
Definition fits (bits z : Z) : bool :=
  (- 2 ^ (bits - 1) <=? z) && (z <? 2 ^ (bits - 1)).

(** The value a signed type of the given width keeps of [z]: the
    two's complement wrap-around a compiler applies, with a warning,
    when a constant expression overflows. *)
Definition wrap (bits z : Z) : Z :=
  (z + 2 ^ (bits - 1)) mod 2 ^ bits - 2 ^ (bits - 1).

(** Width of the type of an unsuffixed decimal constant: the first of
    [int], [long], [long long] that holds its value.  A constant too
    large for [long long] has no standard type. *)
Definition constant_bits (z : Z) : option Z :=
  if fits int_bits z then Some int_bits
  else if fits long_long_bits z then Some long_long_bits
  else None.

(** The product of two integer constants, in the wider of their types.
    Where a constant has no standard type the product is left as it
    is. *)
Definition c_mul (r c : Z) : Z :=
  match constant_bits r, constant_bits c with
  | Some br, Some bc => wrap (Z.max br bc) (r * c)
  | _, _ => r * c
  end.

(** Number of elements of [static matrix_data_t id[rows * cols]]. *)
Definition array_length (rows cols : pp_token) : option Z :=
  match constant_value rows, constant_value cols with
  | Some r, Some c => Some (c_mul r c)
  | _, _ => None
  end.

Definition is_declaration (e : emitted) : bool :=
  match e with
  | PragmaMessage _ => false
  | _ => true
  end.

(** The declarations of an output, without the compile-time notes. *)
Definition declarations (out : list emitted) : list emitted :=
  filter is_declaration out.

Fixpoint declared_arrays (out : list emitted) : list (string * option Z) :=
  match out with
  | [] => []
  | StaticArray id r c :: rest => (id, array_length r c) :: declared_arrays rest
  | _ :: rest => declared_arrays rest
  end.

Fixpoint declared_structs (out : list emitted) : list string :=
  match out with
  | [] => []
  | StaticStruct id :: rest => id :: declared_structs rest
  | _ :: rest => declared_structs rest
  end.

Fixpoint defined_functions (out : list emitted) : list emitted :=
  match out with
  | [] => []
  | InlineFunction id ps body :: rest =>
      InlineFunction id ps body :: defined_functions rest
  | _ :: rest => defined_functions rest
  end.

(** Every identifier an output introduces at file scope. *)
Fixpoint declared_symbols (out : list emitted) : list string :=
  match out with
  | [] => []
  | PragmaMessage _ :: rest => declared_symbols rest
  | StaticArray id _ _ :: rest => id :: declared_symbols rest
  | StaticStruct id :: rest => id :: declared_symbols rest
  | InlineFunction id _ _ :: rest => id :: declared_symbols rest
  end.

(** ** The symbols of an instance *)

(** The logical elements an instance names. *)
Inductive element_tag : Type :=
| TagA | TagP | Tagx | TagB | Tagu | TagQ | TagAggregate | TagInitializer.

(** The identifier the header uses for each element (lines 135-137,
    150-152, 181 and 188). *)
Definition symbol (name : string) (tag : element_tag) : string :=
  match tag with
  | TagA => __KALMAN_BUFFER_A name
  | TagP => __KALMAN_BUFFER_P name
  | Tagx => __KALMAN_BUFFER_x name
  | TagB => KALMAN_BUFFER_NAME name "B"
  | Tagu => KALMAN_BUFFER_NAME name "u"
  | TagQ => KALMAN_BUFFER_NAME name "Q"
  | TagAggregate => KALMAN_STRUCT_NAME name
  | TagInitializer => KALMAN_FUNCTION_NAME name "init"
  end.

(** The two constants of the naming scheme: the literal of
    [KALMAN_FILTER_BASENAME_HELPER] and the one of
    [KALMAN_BASENAME_HELPER]. *)
Definition symbol_prefix : string := "kalman_filter_".
Definition symbol_separator : string := "_".

(** Text that follows the separator in the identifier of an element;
    the aggregate has none. *)
Definition tag_text (tag : element_tag) : string :=
  match tag with
  | TagA => "A_buffer"
  | TagP => "P_buffer"
  | Tagx => "x_buffer"
  | TagB => "B_buffer"
  | Tagu => "u_buffer"
  | TagQ => "Q_buffer"
  | TagAggregate => ""
  | TagInitializer => "init"
  end.

(** What follows the name in the identifier of an element. *)
Definition symbol_suffix (tag : element_tag) : string :=
  match tag with
  | TagAggregate => ""
  | _ => symbol_separator ++ tag_text tag
  end.

(** The naming scheme in the words of the specification:
    prefix + name + separator + tag. *)
Definition spec_identifier (name tag : string) : string :=
  symbol_prefix ++ name ++ symbol_separator ++ tag.

(** A name that does not contain the separator character. *)
Fixpoint separator_free (s : string) : bool :=
  match s with
  | EmptyString => true
  | String c rest => negb (Ascii.eqb c "_") && separator_free rest
  end.

(** The part of a string before its first separator character. *)
Fixpoint up_to_separator (s : string) : string :=
  match s with
  | EmptyString => EmptyString
  | String c rest =>
      if Ascii.eqb c "_" then EmptyString else String c (up_to_separator rest)
  end.

(** The argument the generated call receives for an input buffer:
    the buffer when the preprocessor sees a positive input count,
    the null pointer otherwise. *)
Definition input_buffer_argument (name : string) (inputs : Z) (element : string)
  : c_expr :=
  if inputs >? 0 then Symbol (KALMAN_BUFFER_NAME name element) else NullPointer.

(** ** Further readers of the output *)

(** The elements an instance declares, in the order of the header: the
    three state buffers, the three input buffers when the preprocessor sees
    a positive input count, the structure and the initialiser. *)
Definition instance_tags (inputs : Z) : list element_tag :=
  ([TagA; TagP; Tagx]
   ++ (if inputs >? 0 then [TagB; TagQ; Tagu] else [])
   ++ [TagAggregate; TagInitializer])%list.

(** The identifier a declaration introduces. *)
Definition declared_ident (e : emitted) : option string :=
  match e with
  | PragmaMessage _ => None
  | StaticArray id _ _ => Some id
  | StaticStruct id => Some id
  | InlineFunction id _ _ => Some id
  end.

(** The arrays and the structures the arguments of a call refer to. *)
Fixpoint referenced_arrays (args : list c_expr) : list string :=
  match args with
  | [] => []
  | Symbol id :: rest => id :: referenced_arrays rest
  | _ :: rest => referenced_arrays rest
  end.

Fixpoint referenced_structs (args : list c_expr) : list string :=
  match args with
  | [] => []
  | AddressOf id :: rest => id :: referenced_structs rest
  | _ :: rest => referenced_structs rest
  end.

(** ** C identifiers *)





(** ** Several instances in one translation unit *)

(** The use the head comment of the header describes: the three macros
    are defined, the header is included, the macros are cleaned up, and
    the same is done for a second filter.  The output of the unit is
    threaded through both inclusions. *)
Definition include_twice (env1 env2 : macro_env)
  : list emitted * (diagnostic + unit) :=
  (kalman_factory_filter env1 ;;; kalman_factory_filter env2) [].

(** A stage of the translation only adds to the output it is given. *)
Definition appends_only {A : Type} (m : PP A) : Prop :=
  forall out0, m out0 = ((out0 ++ fst (m []))%list, snd (m [])).

(** An output in which every declaration comes directly after a
    compile-time note whose text contains the identifier it declares;
    notes may also stand alone. *)
Inductive announced : list emitted -> Prop :=
| announced_done : announced []
| announced_note (text : string) (rest : list emitted) :
    announced rest -> announced (PragmaMessage text :: rest)
| announced_declaration (intro trailer id : string) (d : emitted)
                        (rest : list emitted) :
    declared_ident d = Some id ->
    announced rest ->
    announced (PragmaMessage (intro ++ id ++ trailer) :: d :: rest).

(** ** Basic facts: strings *)

Lemma append_assoc (a b c : string) : (a ++ b) ++ c = a ++ b ++ c.
Proof.
  induction a as [|ch a IH]; cbn; [reflexivity|].
  now rewrite IH.
Qed.

Lemma append_empty_r (a : string) : a ++ "" = a.
Proof.
  induction a as [|ch a IH]; cbn; [reflexivity|].
  now rewrite IH.
Qed.

Lemma up_to_separator_append (n t : string) :
  separator_free n = true ->
  up_to_separator (n ++ String "_" t) = n.
Proof.
  induction n as [|ch n IH]; cbn; intros Hfree; [reflexivity|].
  apply andb_prop in Hfree as [Hch Hn].
  apply negb_true_iff in Hch. rewrite Hch.
  now rewrite IH.
Qed.

Lemma up_to_separator_free (n : string) :
  separator_free n = true -> up_to_separator n = n.
Proof.
  induction n as [|ch n IH]; cbn; intros Hfree; [reflexivity|].
  apply andb_prop in Hfree as [Hch Hn].
  apply negb_true_iff in Hch. rewrite Hch.
  now rewrite IH.
Qed.

(** ** Basic facts: the output readers skip the compile-time notes *)

Lemma declared_arrays_declarations (out : list emitted) :
  declared_arrays (declarations out) = declared_arrays out.
Proof.
  unfold declarations.
  induction out as [|e out IH]; [reflexivity|].
  destruct e; cbn; now rewrite ?IH.
Qed.

Lemma declared_symbols_declarations (out : list emitted) :
  declared_symbols (declarations out) = declared_symbols out.
Proof.
  unfold declarations.
  induction out as [|e out IH]; [reflexivity|].
  destruct e; cbn; now rewrite ?IH.
Qed.

Lemma defined_functions_declarations (out : list emitted) :
  defined_functions (declarations out) = defined_functions out.
Proof.
  unfold declarations.
  induction out as [|e out IH]; [reflexivity|].
  destruct e; cbn; now rewrite ?IH.
Qed.

Lemma declared_structs_declarations (out : list emitted) :
  declared_structs (declarations out) = declared_structs out.
Proof.
  unfold declarations.
  induction out as [|e out IH]; [reflexivity|].
  destruct e; cbn; now rewrite ?IH.
Qed.

(** ** Basic facts: the arithmetic of array bounds *)

Lemma wrap_fits (bits z : Z) :
  0 < bits -> fits bits z = true -> wrap bits z = z.
Proof.
  intros Hbits Hfits. unfold fits in Hfits. unfold wrap.
  apply andb_prop in Hfits as [Hlo Hhi].
  apply Z.leb_le in Hlo. apply Z.ltb_lt in Hhi.
  replace bits with (Z.succ (bits - 1)) at 2 by lia.
  rewrite Z.pow_succ_r by lia.
  rewrite Z.mod_small by lia. lia.
Qed.



(** A product by the constant 1 is its other operand, in whatever type. *)
Lemma c_mul_one_r (z : Z) : c_mul z 1 = z.
Proof.
  unfold c_mul. change (constant_bits 1) with (Some int_bits).
  unfold constant_bits. rewrite Z.mul_1_r.
  destruct (fits int_bits z) eqn:Hint.
  - rewrite Z.max_id. apply wrap_fits; [reflexivity | exact Hint].
  - destruct (fits long_long_bits z) eqn:Hlong; [|reflexivity].
    change (Z.max long_long_bits int_bits) with long_long_bits.
    apply wrap_fits; [reflexivity | exact Hlong].
Qed.



(** ** Basic facts: the input checks *)

Ltac unfold_checks :=
  unfold factory, kalman_factory_filter, define,
    check_KALMAN_NAME, check_KALMAN_NUM_STATES, check_KALMAN_NUM_INPUTS,
    pp_error, pp_if, bind, ret, fatal;
  cbn [env_KALMAN_NAME env_KALMAN_NUM_STATES env_KALMAN_NUM_INPUTS].

Ltac unfold_instantiate :=
  unfold instantiate, input_buffers, pragma_message, pp_if,
    bind, ret, fatal, emit.

(** The header rejects an environment without emitting anything, or
    reaches the instantiation with the three macros defined and the two
    comparisons of lines 70 and 76 false. *)
Lemma factory_cases (env : macro_env) :
  (exists d, factory env = ([], inl d)) \/
  (exists name ns ni v w,
      env = define name ns ni /\
      if_value ns = Some v /\ 0 < v /\
      if_value ni = Some w /\ 0 <= w /\
      factory env = instantiate name ns ni []).
Proof.
  destruct env as [[name|] [ns|] [ni|]]; unfold_checks;
    try (left; eexists; reflexivity).
  - destruct (if_value ns) as [v|] eqn:Hns; [|left; eexists; reflexivity].
    destruct (v <=? 0) eqn:Hv; [left; eexists; reflexivity|].
    destruct (if_value ni) as [w|] eqn:Hni; [|left; eexists; reflexivity].
    destruct (w <? 0) eqn:Hw; [left; eexists; reflexivity|].
    right. exists name, ns, ni, v, w.
    apply Z.leb_gt in Hv. apply Z.ltb_ge in Hw.
    repeat split; assumption.
  - destruct (if_value ns) as [v|]; [|left; eexists; reflexivity].
    destruct (v <=? 0); left; eexists; reflexivity.
Qed.

Lemma factory_valid (name : string) (ns ni : pp_token) (v w : Z) :
  if_value ns = Some v -> 0 < v ->
  if_value ni = Some w -> 0 <= w ->
  factory (define name ns ni) = instantiate name ns ni [].
Proof.
  intros Hns Hv Hni Hw. unfold_checks.
  rewrite Hns.
  destruct (Z.leb_spec v 0) as [Ev|Ev]; [lia|].
  rewrite Hni.
  destruct (Z.ltb_spec w 0) as [Ew|Ew]; [lia|].
  reflexivity.
Qed.

(** The declarations of an instantiation that reaches line 84 with a
    token the preprocessor can evaluate for the input count. *)
Lemma instantiate_declarations (name : string) (ns ni : pp_token) (w : Z) :
  if_value ni = Some w ->
  exists out,
    instantiate name ns ni [] = (out, inr tt) /\
    declarations out =
      ([StaticArray (symbol name TagA) ns ns;
        StaticArray (symbol name TagP) ns ns;
        StaticArray (symbol name Tagx) ns (PPInteger 1)]
       ++ (if w >? 0
           then [StaticArray (symbol name TagB) ns ni;
                 StaticArray (symbol name TagQ) ni ni;
                 StaticArray (symbol name Tagu) ns (PPInteger 1)]
           else [])
       ++ [StaticStruct (symbol name TagAggregate);
           InlineFunction (symbol name TagInitializer) []
             [Call "kalman_filter_initialize"
                [AddressOf (symbol name TagAggregate);
                 Constant ns;
                 Constant ni;
                 Symbol (symbol name TagA);
                 Symbol (symbol name Tagx);
                 input_buffer_argument name w "B";
                 input_buffer_argument name w "u";
                 Symbol (symbol name TagP);
                 input_buffer_argument name w "Q"]]])%list.
Proof.
  intros Hni. unfold_instantiate. unfold input_buffer_argument.
  rewrite Hni.
  destruct (w >? 0); eexists; split; reflexivity.
Qed.

(** ** Basic facts: the identifiers *)

Lemma append_cancel_l (a b c : string) : a ++ b = a ++ c -> b = c.
Proof.
  induction a as [|ch a IH]; cbn; intros H; [exact H|].
  injection H as H. auto.
Qed.

Lemma symbol_decompose (name : string) (tag : element_tag) :
  symbol name tag = symbol_prefix ++ name ++ symbol_suffix tag.
Proof.
  destruct tag;
    unfold symbol, __KALMAN_BUFFER_A, __KALMAN_BUFFER_P, __KALMAN_BUFFER_x,
      KALMAN_BUFFER_NAME, KALMAN_FUNCTION_NAME, KALMAN_STRUCT_NAME,
      KALMAN_BASENAME_HELPER, KALMAN_FILTER_BASENAME,
      KALMAN_FILTER_BASENAME_HELPER, __CONCAT, symbol_prefix, symbol_suffix,
      symbol_separator, tag_text;
    rewrite ?append_assoc, ?append_empty_r; reflexivity.
Qed.

Lemma up_to_separator_suffix (name : string) (tag : element_tag) :
  separator_free name = true ->
  up_to_separator (name ++ symbol_suffix tag) = name.
Proof.
  intros Hfree.
  destruct tag; cbn [symbol_suffix];
    try (unfold symbol_separator; cbn [append];
         now apply up_to_separator_append).
  rewrite append_empty_r. now apply up_to_separator_free.
Qed.

(** Two identifiers of the scheme that coincide belong to the same
    name, when neither name contains the separator. *)
Lemma symbol_name_injective (n1 n2 : string) (t1 t2 : element_tag) :
  separator_free n1 = true -> separator_free n2 = true ->
  symbol n1 t1 = symbol n2 t2 -> n1 = n2.
Proof.
  intros H1 H2 Heq.
  rewrite !symbol_decompose in Heq.
  apply append_cancel_l in Heq.
  apply (f_equal up_to_separator) in Heq.
  now rewrite !up_to_separator_suffix in Heq.
Qed.

(** However the aggregate identifiers are split into a constant prefix,
    the name, a constant separator and a constant tag, the separator and
    the tag are empty. *)
Lemma aggregate_has_no_separator_nor_tag (prefix separator tag : string) :
  (forall name, KALMAN_STRUCT_NAME name = prefix ++ name ++ separator ++ tag) ->
  separator = "" /\ tag = "".
Proof.
  intros Hscheme. specialize (Hscheme "z"). cbv in Hscheme.
  fold append in Hscheme.
  do 14 (destruct prefix as [|? prefix]; cbn in Hscheme;
         [discriminate Hscheme | injection Hscheme as _ Hscheme]).
  destruct prefix as [|? prefix]; cbn in Hscheme.
  - injection Hscheme as Hscheme.
    destruct separator; [|discriminate Hscheme].
    destruct tag; [|discriminate Hscheme]. split; reflexivity.
  - injection Hscheme as _ Hscheme.
    destruct prefix; discriminate Hscheme.
Qed.

(** What an accepted translation declares, for integer dimensions. *)
Lemma factory_accepted (name : string) (ns ni : Z) :
  0 < ns -> 0 <= ni ->
  exists out,
    factory (define name (PPInteger ns) (PPInteger ni)) = (out, inr tt) /\
    declared_arrays out =
      ([(symbol name TagA, Some (c_mul ns ns));
        (symbol name TagP, Some (c_mul ns ns));
        (symbol name Tagx, Some (c_mul ns 1))]
       ++ (if ni >? 0
           then [(symbol name TagB, Some (c_mul ns ni));
                 (symbol name TagQ, Some (c_mul ni ni));
                 (symbol name Tagu, Some (c_mul ns 1))]
           else []))%list /\
    declared_structs out = [symbol name TagAggregate] /\
    defined_functions out =
      [InlineFunction (symbol name TagInitializer) []
         [Call "kalman_filter_initialize"
            [AddressOf (symbol name TagAggregate);
             Constant (PPInteger ns);
             Constant (PPInteger ni);
             Symbol (symbol name TagA);
             Symbol (symbol name Tagx);
             input_buffer_argument name ni "B";
             input_buffer_argument name ni "u";
             Symbol (symbol name TagP);
             input_buffer_argument name ni "Q"]]].
Proof.
  intros Hns Hni.
  rewrite (factory_valid name (PPInteger ns) (PPInteger ni) ns ni)
    by (reflexivity || assumption).
  destruct (instantiate_declarations name (PPInteger ns) (PPInteger ni) ni eq_refl)
    as (out & Hrun & Hdecl).
  exists out. split; [exact Hrun|].
  rewrite <- declared_arrays_declarations, <- declared_structs_declarations,
    <- defined_functions_declarations, Hdecl.
  destruct (ni >? 0); repeat split; reflexivity.
Qed.

Ltac solve_tag :=
  first [ exists TagA; reflexivity | exists TagP; reflexivity
        | exists Tagx; reflexivity | exists TagB; reflexivity
        | exists Tagu; reflexivity | exists TagQ; reflexivity
        | exists TagAggregate; reflexivity
        | exists TagInitializer; reflexivity ].

(** Every identifier an accepted translation declares is the symbol of
    one of the eight elements. *)
Lemma factory_declared_symbols (name : string) (ns ni : pp_token)
      (out : list emitted) :
  factory (define name ns ni) = (out, inr tt) ->
  forall s, In s (declared_symbols out) -> exists tag, s = symbol name tag.
Proof.
  intros Hrun s Hin.
  destruct (factory_cases (define name ns ni))
    as [[d Hd] | (name' & ns' & ni' & v & w & Henv & _ & _ & Hni & _ & Hinst)].
  - rewrite Hd in Hrun. discriminate.
  - injection Henv as <- <- <-.
    destruct (instantiate_declarations name ns ni w Hni) as (out' & Hrun' & Hdecl).
    rewrite Hinst, Hrun' in Hrun. injection Hrun as <-.
    rewrite <- declared_symbols_declarations, Hdecl in Hin.
    destruct (w >? 0); cbn [app declared_symbols In] in Hin;
      repeat (destruct Hin as [<- | Hin]; [solve_tag|]);
      contradiction.
Qed.

(** * The claims *)

(** ** C1: buffer element counts *)

(** C1 (the code departs from the claim).  For name = imu, numStates = 4,
    numInputs = 2 the header declares A with 16 elements, P with 16,
    x with 4, B with 8 and Q with 4, as the shape table says, but the
    u buffer with 4 elements (numStates) and not 2 (numInputs): its
    declaration at line 161 multiplies [__KALMAN_x_ROWS], not
    [__KALMAN_u_ROWS], by [__KALMAN_u_COLS]. *)
Theorem C1_imu_u_buffer_has_numStates_elements :
  snd (factory (define "imu" (PPInteger 4) (PPInteger 2))) = inr tt /\
  declared_arrays (fst (factory (define "imu" (PPInteger 4) (PPInteger 2)))) =
    [("kalman_filter_imu_A_buffer", Some 16);
     ("kalman_filter_imu_P_buffer", Some 16);
     ("kalman_filter_imu_x_buffer", Some 4);
     ("kalman_filter_imu_B_buffer", Some 8);
     ("kalman_filter_imu_Q_buffer", Some 4);
     ("kalman_filter_imu_u_buffer", Some 4)] /\
  array_length (__KALMAN_u_ROWS (PPInteger 2)) __KALMAN_u_COLS = Some 2.
Proof.
  repeat split; reflexivity.
Qed.

(** ** C2: invalid dimensions are rejected before anything is produced *)

(** C2.  Whenever numStates <= 0 or numInputs < 0, the translation ends in
    a fatal diagnostic and its output is empty: no buffer, no structure, no
    initialiser and not even a compile-time note has been produced. *)
Theorem C2_invalid_dimension_rejected (env : macro_env) :
  (exists ns, env_KALMAN_NUM_STATES env = Some (PPInteger ns) /\ ns <= 0) \/
  (exists ni, env_KALMAN_NUM_INPUTS env = Some (PPInteger ni) /\ ni < 0) ->
  exists d, factory env = ([], inl d).
Proof.
  intros Hbad.
  destruct (factory_cases env)
    as [Hrej | (name & ns & ni & v & w & -> & Hns & Hv & Hni & Hw & _)];
    [exact Hrej|].
  exfalso.
  destruct Hbad as [(z & Hz & Hle) | (z & Hz & Hlt)]; cbn in Hz;
    injection Hz as ->; cbn in *.
  - injection Hns as ->. lia.
  - injection Hni as ->. lia.
Qed.

Lemma C2_invalid_dimension_rejected_witness :
  exists d, factory (define "imu" (PPInteger 0) (PPInteger (-1))) = ([], inl d).
Proof.
  apply (C2_invalid_dimension_rejected
           (define "imu" (PPInteger 0) (PPInteger (-1)))).
  left. exists 0. split; [reflexivity | lia].
Defined.

(** ** C3: missing parameters *)

(** C3.  If [KALMAN_NAME], [KALMAN_NUM_STATES] or [KALMAN_NUM_INPUTS] is
    not defined when the header is included, the translation ends in a
    fatal diagnostic, with nothing produced. *)
Theorem C3_missing_parameter_rejected (env : macro_env) :
  env_KALMAN_NAME env = None \/
  env_KALMAN_NUM_STATES env = None \/
  env_KALMAN_NUM_INPUTS env = None ->
  exists d, factory env = ([], inl d).
Proof.
  intros Hmissing.
  destruct (factory_cases env)
    as [Hrej | (name & ns & ni & v & w & -> & _)];
    [exact Hrej|].
  cbn in Hmissing. destruct Hmissing as [H | [H | H]]; discriminate H.
Qed.

Lemma C3_missing_parameter_rejected_witness :
  exists d, factory (MacroEnv (Some "imu") (Some (PPInteger 4)) None) = ([], inl d).
Proof.
  apply (C3_missing_parameter_rejected
           (MacroEnv (Some "imu") (Some (PPInteger 4)) None)).
  right. right. reflexivity.
Defined.

(** ** C4: no input storage for a filter without inputs *)

(** C4.  With numInputs = 0 the translation is accepted, the only arrays
    declared are the A, P and x buffers (none for B, Q or u), and the
    generated initialiser passes the null pointer in the B, u and Q
    positions of its call. *)
Theorem C4_zero_inputs_null_buffers (name : string) (ns : Z) :
  0 < ns ->
  exists out,
    factory (define name (PPInteger ns) (PPInteger 0)) = (out, inr tt) /\
    map fst (declared_arrays out) =
      [symbol name TagA; symbol name TagP; symbol name Tagx] /\
    defined_functions out =
      [InlineFunction (symbol name TagInitializer) []
         [Call "kalman_filter_initialize"
            [AddressOf (symbol name TagAggregate);
             Constant (PPInteger ns);
             Constant (PPInteger 0);
             Symbol (symbol name TagA);
             Symbol (symbol name Tagx);
             NullPointer;
             NullPointer;
             Symbol (symbol name TagP);
             NullPointer]]].
Proof.
  intros Hns.
  destruct (factory_accepted name ns 0 Hns (Z.le_refl 0))
    as (out & Hrun & Harrays & _ & Hfun).
  exists out. split; [exact Hrun|]. split.
  - rewrite Harrays. reflexivity.
  - rewrite Hfun. reflexivity.
Qed.

Lemma C4_zero_inputs_null_buffers_witness :
  exists out,
    factory (define "imu" (PPInteger 4) (PPInteger 0)) = (out, inr tt) /\
    map fst (declared_arrays out) =
      ["kalman_filter_imu_A_buffer"; "kalman_filter_imu_P_buffer";
       "kalman_filter_imu_x_buffer"] /\
    defined_functions out =
      [InlineFunction "kalman_filter_imu_init" []
         [Call "kalman_filter_initialize"
            [AddressOf "kalman_filter_imu";
             Constant (PPInteger 4);
             Constant (PPInteger 0);
             Symbol "kalman_filter_imu_A_buffer";
             Symbol "kalman_filter_imu_x_buffer";
             NullPointer;
             NullPointer;
             Symbol "kalman_filter_imu_P_buffer";
             NullPointer]]].
Proof.
  apply (C4_zero_inputs_null_buffers "imu" 4). lia.
Defined.

(** ** C5: the naming scheme *)

(** C5 (as amended).  For every name, the identifier of each buffer and of
    the initialiser is prefix + name + separator + tag text, with the
    prefix [kalman_filter_], the separator [_], the tag texts [A_buffer],
    [P_buffer], [x_buffer], [B_buffer], [u_buffer], [Q_buffer] and [init];
    the identifier of the aggregate is prefix + name alone.  [symbol] is
    a function of the name and the tag, so the same pair always gives the
    same identifier. *)
Theorem C5_symbol_scheme (name : string) (tag : element_tag) :
  symbol name tag =
    match tag with
    | TagAggregate => symbol_prefix ++ name
    | _ => spec_identifier name (tag_text tag)
    end.
Proof.
  rewrite symbol_decompose.
  destruct tag; unfold spec_identifier; cbn [symbol_suffix];
    rewrite ?append_empty_r; reflexivity.
Qed.

(** C5 (counterexample to the claim as stated).  The aggregate of the
    instance named [example] is [kalman_filter_example]: it is not
    prefix + name + separator + tag for any tag text. *)
Lemma C5_aggregate_without_separator :
  symbol "example" TagAggregate = "kalman_filter_example" /\
  ~ exists tag, symbol "example" TagAggregate = spec_identifier "example" tag.
Proof.
  split; [reflexivity|].
  intros [tag H]. cbv in H. discriminate H.
Qed.

(** ** C6: distinct names give disjoint symbol families *)

(** C6 (as amended).  Two accepted translations whose names are distinct
    and do not contain the separator character [_] declare disjoint sets
    of identifiers: no buffer, aggregate or initialiser identifier of the
    one equals an identifier of the other. *)
Theorem C6_symbol_families_disjoint
        (n1 n2 : string) (ns1 ni1 ns2 ni2 : pp_token)
        (out1 out2 : list emitted) :
  factory (define n1 ns1 ni1) = (out1, inr tt) ->
  factory (define n2 ns2 ni2) = (out2, inr tt) ->
  n1 <> n2 ->
  separator_free n1 = true ->
  separator_free n2 = true ->
  forall s, In s (declared_symbols out1) -> ~ In s (declared_symbols out2).
Proof.
  intros Hrun1 Hrun2 Hneq Hfree1 Hfree2 s Hin1 Hin2.
  destruct (factory_declared_symbols _ _ _ _ Hrun1 s Hin1) as [t1 ->].
  destruct (factory_declared_symbols _ _ _ _ Hrun2 _ Hin2) as [t2 Heq].
  apply Hneq. exact (symbol_name_injective n1 n2 t1 t2 Hfree1 Hfree2 Heq).
Qed.

Lemma C6_symbol_families_disjoint_witness :
  ~ In "kalman_filter_alpha_init"
       (declared_symbols
          (fst (factory (define "beta" (PPInteger 3) (PPInteger 1))))).
Proof.
  apply (C6_symbol_families_disjoint
           "alpha" "beta" (PPInteger 3) (PPInteger 0) (PPInteger 3) (PPInteger 1)
           (fst (factory (define "alpha" (PPInteger 3) (PPInteger 0))))
           (fst (factory (define "beta" (PPInteger 3) (PPInteger 1))))).
  - reflexivity.
  - reflexivity.
  - discriminate.
  - reflexivity.
  - reflexivity.
  - vm_compute. tauto.
Defined.

(** C6 (counterexample to the claim as stated).  The distinct names [a]
    and [a_init] are both accepted, and the initialiser of the first has
    the identifier of the aggregate of the second,
    [kalman_filter_a_init]. *)
Lemma C6_distinct_names_collide :
  "a" <> "a_init" /\
  snd (factory (define "a" (PPInteger 1) (PPInteger 0))) = inr tt /\
  snd (factory (define "a_init" (PPInteger 1) (PPInteger 0))) = inr tt /\
  In "kalman_filter_a_init"
     (declared_symbols (fst (factory (define "a" (PPInteger 1) (PPInteger 0))))) /\
  In "kalman_filter_a_init"
     (declared_symbols
        (fst (factory (define "a_init" (PPInteger 1) (PPInteger 0))))) /\
  symbol "a" TagInitializer = symbol "a_init" TagAggregate.
Proof.
  split; [discriminate|].
  repeat split; try reflexivity; vm_compute; tauto.
Qed.

(** ** C7: the generated initialiser *)

(** C7.  An accepted translation declares exactly one structure, named by
    the aggregate symbol, and defines exactly one function, named by the
    initialiser symbol, without parameters; its body is the single call
    [kalman_filter_initialize(&aggregate, numStates, numInputs, A, x, B, u,
    P, Q)], where B, u and Q are the input buffers, or the null pointer
    when there are no inputs. *)
Theorem C7_initializer_single_call (name : string) (ns ni : Z) :
  0 < ns -> 0 <= ni ->
  exists out,
    factory (define name (PPInteger ns) (PPInteger ni)) = (out, inr tt) /\
    declared_structs out = [KALMAN_STRUCT_NAME name] /\
    defined_functions out =
      [InlineFunction (KALMAN_FUNCTION_NAME name "init") []
         [Call "kalman_filter_initialize"
            [AddressOf (KALMAN_STRUCT_NAME name);
             Constant (PPInteger ns);
             Constant (PPInteger ni);
             Symbol (KALMAN_BUFFER_NAME name "A");
             Symbol (KALMAN_BUFFER_NAME name "x");
             (if ni >? 0 then Symbol (KALMAN_BUFFER_NAME name "B") else NullPointer);
             (if ni >? 0 then Symbol (KALMAN_BUFFER_NAME name "u") else NullPointer);
             Symbol (KALMAN_BUFFER_NAME name "P");
             (if ni >? 0 then Symbol (KALMAN_BUFFER_NAME name "Q") else NullPointer)]]].
Proof.
  intros Hns Hni.
  destruct (factory_accepted name ns ni Hns Hni)
    as (out & Hrun & _ & Hstruct & Hfun).
  exists out. repeat split; assumption.
Qed.

Lemma C7_initializer_single_call_witness :
  exists out,
    factory (define "imu" (PPInteger 4) (PPInteger 2)) = (out, inr tt) /\
    declared_structs out = ["kalman_filter_imu"] /\
    defined_functions out =
      [InlineFunction "kalman_filter_imu_init" []
         [Call "kalman_filter_initialize"
            [AddressOf "kalman_filter_imu";
             Constant (PPInteger 4);
             Constant (PPInteger 2);
             Symbol "kalman_filter_imu_A_buffer";
             Symbol "kalman_filter_imu_x_buffer";
             Symbol "kalman_filter_imu_B_buffer";
             Symbol "kalman_filter_imu_u_buffer";
             Symbol "kalman_filter_imu_P_buffer";
             Symbol "kalman_filter_imu_Q_buffer"]]].
Proof.
  apply (C7_initializer_single_call "imu" 4 2); lia.
Defined.

(** ** C8: the message of an invalid dimension *)

(** C8.  When the three macros are defined and a dimension is invalid
    (numStates <= 0 or numInputs < 0), the translation stops at an
    [#error] whose message is the name of a parameter at fault followed
    by the constraint it violates: [KALMAN_NUM_STATES must be a positive
    integer], or [KALMAN_NUM_INPUTS must be a positive integer or zero if
    no inputs are used].  The message gives the constraint, not the
    offending value. *)
Theorem C8_invalid_dimension_message (name : string) (ns ni : Z) :
  ns <= 0 \/ ni < 0 ->
  exists parameter constraint,
    factory (define name (PPInteger ns) (PPInteger ni)) =
      ([], inl (ErrorDirective (parameter ++ " " ++ constraint))) /\
    ((parameter = "KALMAN_NUM_STATES" /\ ns <= 0 /\
      constraint = "must be a positive integer") \/
     (parameter = "KALMAN_NUM_INPUTS" /\ ni < 0 /\
      constraint = "must be a positive integer or zero if no inputs are used")).
Proof.
  intros Hbad. unfold_checks. cbn [if_value].
  destruct (Z.leb_spec ns 0) as [Hns | Hns].
  - exists "KALMAN_NUM_STATES", "must be a positive integer".
    split; [reflexivity|]. left. auto.
  - destruct (Z.ltb_spec ni 0) as [Hni | Hni]; [|lia].
    exists "KALMAN_NUM_INPUTS",
      "must be a positive integer or zero if no inputs are used".
    split; [reflexivity|]. right. auto.
Qed.

Lemma C8_invalid_dimension_message_witness :
  exists parameter constraint,
    factory (define "imu" (PPInteger 4) (PPInteger (-2))) =
      ([], inl (ErrorDirective (parameter ++ " " ++ constraint))) /\
    ((parameter = "KALMAN_NUM_STATES" /\ 4 <= 0 /\
      constraint = "must be a positive integer") \/
     (parameter = "KALMAN_NUM_INPUTS" /\ -2 < 0 /\
      constraint = "must be a positive integer or zero if no inputs are used")).
Proof.
  apply (C8_invalid_dimension_message "imu" 4 (-2)). right. lia.
Defined.

(** ** C9: dimensions that are not integer constants *)

(** C9 (as amended).  A dimension given as an identifier that is not a
    macro counts as 0 in the comparisons of the header: as numStates it is
    rejected with the positive-integer error; as numInputs it passes the
    check and a filter without inputs is generated (no B, Q or u array,
    null pointers in their place), the identifier itself being passed as
    the input count of the initialisation call. *)
Theorem C9_identifier_counts_as_zero (name ident : string) (ns : Z) :
  0 < ns ->
  if_value (PPIdentifier ident) = Some 0 /\
  (forall ni,
      factory (define name (PPIdentifier ident) ni) =
        ([], inl (ErrorDirective "KALMAN_NUM_STATES must be a positive integer"))) /\
  exists out,
    factory (define name (PPInteger ns) (PPIdentifier ident)) = (out, inr tt) /\
    map fst (declared_arrays out) =
      [symbol name TagA; symbol name TagP; symbol name Tagx] /\
    defined_functions out =
      [InlineFunction (symbol name TagInitializer) []
         [Call "kalman_filter_initialize"
            [AddressOf (symbol name TagAggregate);
             Constant (PPInteger ns);
             Constant (PPIdentifier ident);
             Symbol (symbol name TagA);
             Symbol (symbol name Tagx);
             NullPointer;
             NullPointer;
             Symbol (symbol name TagP);
             NullPointer]]].
Proof.
  intros Hns. split; [reflexivity|]. split; [intros ni; reflexivity|].
  rewrite (factory_valid name (PPInteger ns) (PPIdentifier ident) ns 0)
    by (reflexivity || lia).
  destruct (instantiate_declarations name (PPInteger ns) (PPIdentifier ident) 0
              eq_refl) as (out & Hrun & Hdecl).
  exists out. split; [exact Hrun|].
  rewrite <- declared_arrays_declarations, <- defined_functions_declarations,
    Hdecl.
  split; reflexivity.
Qed.

Lemma C9_identifier_counts_as_zero_witness :
  if_value (PPIdentifier "N_INPUTS") = Some 0 /\
  (forall ni,
      factory (define "imu" (PPIdentifier "N_INPUTS") ni) =
        ([], inl (ErrorDirective "KALMAN_NUM_STATES must be a positive integer"))) /\
  exists out,
    factory (define "imu" (PPInteger 4) (PPIdentifier "N_INPUTS")) = (out, inr tt) /\
    map fst (declared_arrays out) =
      ["kalman_filter_imu_A_buffer"; "kalman_filter_imu_P_buffer";
       "kalman_filter_imu_x_buffer"] /\
    defined_functions out =
      [InlineFunction "kalman_filter_imu_init" []
         [Call "kalman_filter_initialize"
            [AddressOf "kalman_filter_imu";
             Constant (PPInteger 4);
             Constant (PPIdentifier "N_INPUTS");
             Symbol "kalman_filter_imu_A_buffer";
             Symbol "kalman_filter_imu_x_buffer";
             NullPointer;
             NullPointer;
             Symbol "kalman_filter_imu_P_buffer";
             NullPointer]]].
Proof.
  apply (C9_identifier_counts_as_zero "imu" "N_INPUTS" 4). lia.
Defined.

(** C9 (counterexample to the claim as stated).  A floating constant is a
    token that is not an integer, and the comparisons do not take it as 0:
    [2.5] has no value in a controlling expression, so as numInputs it
    does not pass the check, and as numStates it is rejected, but not with
    the positive-integer error. *)
Lemma C9_floating_constant_not_zero :
  if_value (PPFloating "2.5") <> Some 0 /\
  factory (define "imu" (PPInteger 4) (PPFloating "2.5")) =
    ([], inl (InvalidIfExpression (PPFloating "2.5"))) /\
  factory (define "imu" (PPFloating "2.5") (PPInteger 0)) =
    ([], inl (InvalidIfExpression (PPFloating "2.5"))).
Proof.
  split; [discriminate|]. split; reflexivity.
Qed.

(** ** C10: no upper bound on the dimensions *)

(** C10 (the code departs from the claim).  Every numStates >= 1 with
    numInputs >= 0 is accepted, however large, and each array is declared
    with the product of the two constants its declaration names, computed
    as the C constant expression it is, wrap-around included; nothing in
    the header checks it.  For A, P, x, B and Q these are the buffer's own
    row and column constants.  For u they are not: its declaration
    multiplies the row constant of x, so u has numStates elements, where
    the product of its own constants [__KALMAN_u_ROWS] and
    [__KALMAN_u_COLS] is numInputs. *)
Theorem C10_raw_products_unchecked (name : string) (ns ni : Z) :
  1 <= ns -> 0 <= ni ->
  exists out,
    factory (define name (PPInteger ns) (PPInteger ni)) = (out, inr tt) /\
    declared_arrays out =
      ([(KALMAN_BUFFER_NAME name "A",
          array_length (__KALMAN_A_ROWS (PPInteger ns)) (__KALMAN_A_COLS (PPInteger ns)));
        (KALMAN_BUFFER_NAME name "P",
          array_length (__KALMAN_P_ROWS (PPInteger ns)) (__KALMAN_P_COLS (PPInteger ns)));
        (KALMAN_BUFFER_NAME name "x",
          array_length (__KALMAN_x_ROWS (PPInteger ns)) __KALMAN_x_COLS)]
       ++ (if ni >? 0
           then [(KALMAN_BUFFER_NAME name "B",
                   array_length (__KALMAN_B_ROWS (PPInteger ns))
                                (__KALMAN_B_COLS (PPInteger ni)));
                 (KALMAN_BUFFER_NAME name "Q",
                   array_length (__KALMAN_Q_ROWS (PPInteger ni))
                                (__KALMAN_Q_COLS (PPInteger ni)));
                 (KALMAN_BUFFER_NAME name "u",
                   array_length (__KALMAN_x_ROWS (PPInteger ns)) __KALMAN_u_COLS)]
           else []))%list /\
    array_length (__KALMAN_A_ROWS (PPInteger ns)) (__KALMAN_A_COLS (PPInteger ns))
      = Some (c_mul ns ns) /\
    array_length (__KALMAN_P_ROWS (PPInteger ns)) (__KALMAN_P_COLS (PPInteger ns))
      = Some (c_mul ns ns) /\
    array_length (__KALMAN_x_ROWS (PPInteger ns)) __KALMAN_x_COLS
      = Some ns /\
    array_length (__KALMAN_B_ROWS (PPInteger ns)) (__KALMAN_B_COLS (PPInteger ni))
      = Some (c_mul ns ni) /\
    array_length (__KALMAN_Q_ROWS (PPInteger ni)) (__KALMAN_Q_COLS (PPInteger ni))
      = Some (c_mul ni ni) /\
    array_length (__KALMAN_x_ROWS (PPInteger ns)) __KALMAN_u_COLS
      = Some ns /\
    array_length (__KALMAN_u_ROWS (PPInteger ni)) __KALMAN_u_COLS
      = Some ni.
Proof.
  intros Hns Hni.
  destruct (factory_accepted name ns ni ltac:(lia) Hni)
    as (out & Hrun & Harrays & _).
  exists out. split; [exact Hrun|]. split; [exact Harrays|].
  unfold array_length, __KALMAN_A_ROWS, __KALMAN_A_COLS, __KALMAN_P_ROWS,
    __KALMAN_P_COLS, __KALMAN_x_ROWS, __KALMAN_x_COLS, __KALMAN_B_ROWS,
    __KALMAN_B_COLS, __KALMAN_Q_ROWS, __KALMAN_Q_COLS, __KALMAN_u_ROWS,
    __KALMAN_u_COLS, constant_value.
  rewrite !c_mul_one_r. repeat split; reflexivity.
Qed.

Lemma C10_raw_products_unchecked_witness :
  exists out,
    factory (define "imu" (PPInteger 4) (PPInteger 65536)) = (out, inr tt) /\
    declared_arrays out =
      [("kalman_filter_imu_A_buffer", Some 16);
       ("kalman_filter_imu_P_buffer", Some 16);
       ("kalman_filter_imu_x_buffer", Some 4);
       ("kalman_filter_imu_B_buffer", Some 262144);
       ("kalman_filter_imu_Q_buffer", Some 0);
       ("kalman_filter_imu_u_buffer", Some 4)] /\
    array_length (__KALMAN_x_ROWS (PPInteger 4)) __KALMAN_u_COLS = Some 4 /\
    array_length (__KALMAN_u_ROWS (PPInteger 65536)) __KALMAN_u_COLS = Some 65536.
Proof.
  destruct (C10_raw_products_unchecked "imu" 4 65536)
    as (out & Hrun & Harrays & _ & _ & _ & _ & _ & Hu & Hown); [lia | lia |].
  exists out. split; [exact Hrun|]. split; [exact Harrays|].
  split; [exact Hu | exact Hown].
Defined.

(** * Further properties of the header *)

(** ** Shared facts *)

Lemma factory_success (env : macro_env) (out : list emitted) :
  factory env = (out, inr tt) ->
  exists name ns ni v w,
    env = define name ns ni /\
    if_value ns = Some v /\ 0 < v /\
    if_value ni = Some w /\ 0 <= w /\
    instantiate name ns ni [] = (out, inr tt).
Proof.
  intros Hrun.
  destruct (factory_cases env)
    as [[d Hd] | (name & ns & ni & v & w & Henv & Hns & Hv & Hni & Hw & Hinst)].
  - rewrite Hd in Hrun. discriminate Hrun.
  - exists name, ns, ni, v, w. rewrite <- Hinst. auto 10.
Qed.

Lemma factory_symbols (name : string) (ns ni : pp_token) (out : list emitted) :
  factory (define name ns ni) = (out, inr tt) ->
  exists w,
    if_value ni = Some w /\ 0 <= w /\
    declared_symbols out = map (symbol name) (instance_tags w) /\
    map fst (declared_arrays out) =
      map (symbol name)
          ([TagA; TagP; Tagx] ++ (if w >? 0 then [TagB; TagQ; Tagu] else []))%list /\
    declared_structs out = [symbol name TagAggregate] /\
    map declared_ident (defined_functions out) = [Some (symbol name TagInitializer)].
Proof.
  intros Hrun.
  destruct (factory_success _ _ Hrun)
    as (name' & ns' & ni' & v & w & Henv & _ & _ & Hni & Hw & Hinst).
  injection Henv as <- <- <-.
  destruct (instantiate_declarations name ns ni w Hni) as (out' & Hrun' & Hdecl).
  rewrite Hrun' in Hinst. injection Hinst as ->.
  exists w. split; [exact Hni|]. split; [exact Hw|].
  rewrite <- declared_symbols_declarations, <- declared_arrays_declarations,
    <- declared_structs_declarations, <- defined_functions_declarations, Hdecl.
  unfold instance_tags. destruct (w >? 0); repeat split; reflexivity.
Qed.

Lemma symbol_tag_injective (name : string) (t1 t2 : element_tag) :
  symbol name t1 = symbol name t2 -> t1 = t2.
Proof.
  rewrite !symbol_decompose. intros Heq.
  apply append_cancel_l, append_cancel_l in Heq.
  destruct t1, t2; first [reflexivity | discriminate Heq].
Qed.

Lemma instance_tags_NoDup (w : Z) : NoDup (instance_tags w).
Proof.
  unfold instance_tags.
  destruct (w >? 0); cbn;
    repeat (constructor; [cbn; intuition discriminate|]); constructor.
Qed.

Lemma instance_symbols_NoDup (name : string) (w : Z) :
  NoDup (map (symbol name) (instance_tags w)).
Proof.
  apply NoDup_map_NoDup_ForallPairs; [|apply instance_tags_NoDup].
  intros t1 t2 _ _. apply symbol_tag_injective.
Qed.

(** ** Acceptance *)

(** X1.  The header is translated successfully exactly when the three
    macros are defined, the state count evaluates to a positive value in
    the comparison of line 70 and the input count to a value that is not
    negative in the comparison of line 76. *)
Theorem X1_accepted_iff (env : macro_env) :
  (exists out, factory env = (out, inr tt)) <->
  (exists name ns ni v w,
      env = define name ns ni /\
      if_value ns = Some v /\ 0 < v /\
      if_value ni = Some w /\ 0 <= w).
Proof.
  split.
  - intros [out Hrun].
    destruct (factory_success _ _ Hrun)
      as (name & ns & ni & v & w & Henv & Hns & Hv & Hni & Hw & _).
    exists name, ns, ni, v, w. auto.
  - intros (name & ns & ni & v & w & -> & Hns & Hv & Hni & Hw).
    rewrite (factory_valid name ns ni v w Hns Hv Hni Hw).
    destruct (instantiate_declarations name ns ni w Hni) as (out & Hrun & _).
    exists out. exact Hrun.
Qed.

(** X2.  A translation is all or nothing.  Either it stops at a fatal
    diagnostic with an empty output, or it succeeds with a complete
    instance: three arrays, or six when the input count is positive, one
    structure and one function.  A diagnostic never follows a declaration;
    in particular the comparison of line 148 cannot fail once the one of
    line 76 was evaluated. *)
Theorem X2_all_or_nothing (env : macro_env) :
  (exists d, factory env = ([], inl d)) \/
  (exists out w,
      factory env = (out, inr tt) /\
      option_map if_value (env_KALMAN_NUM_INPUTS env) = Some (Some w) /\
      length (declared_arrays out) = (if w >? 0 then 6 else 3)%nat /\
      length (declared_structs out) = 1%nat /\
      length (defined_functions out) = 1%nat).
Proof.
  destruct (factory_cases env)
    as [Hrej | (name & ns & ni & v & w & -> & Hns & Hv & Hni & Hw & Hinst)];
    [left; exact Hrej | right].
  destruct (instantiate_declarations name ns ni w Hni) as (out & Hrun & Hdecl).
  exists out, w. rewrite Hinst. split; [exact Hrun|].
  split; [cbn; now rewrite Hni|].
  rewrite <- declared_arrays_declarations, <- declared_structs_declarations,
    <- defined_functions_declarations, Hdecl.
  destruct (w >? 0); repeat split; reflexivity.
Qed.

(** X3.  The message of a missing macro names the first one that is
    missing, in the order name, state count, input count: a missing
    [KALMAN_NAME] is reported whatever the dimensions are, a missing
    [KALMAN_NUM_STATES] whenever the name is defined, and a missing
    [KALMAN_NUM_INPUTS] when the name is defined and the state count is
    valid. *)
Theorem X3_first_missing_macro_reported (env : macro_env) :
  (env_KALMAN_NAME env = None ->
   factory env =
     ([], inl (ErrorDirective
                 "KALMAN_NAME needs to be defined prior to inclusion of this file."))) /\
  (env_KALMAN_NAME env <> None -> env_KALMAN_NUM_STATES env = None ->
   factory env =
     ([], inl (ErrorDirective
                 "KALMAN_NUM_STATES needs to be defined prior to inclusion of this file."))) /\
  (forall ns v,
      env_KALMAN_NAME env <> None ->
      env_KALMAN_NUM_STATES env = Some ns -> if_value ns = Some v -> 0 < v ->
      env_KALMAN_NUM_INPUTS env = None ->
      factory env =
        ([], inl (ErrorDirective
                    "KALMAN_NUM_INPUTS needs to be defined prior to inclusion of this file."))).
Proof.
  destruct env as [name ns ni]; cbn.
  split; [intros ->; reflexivity|].
  split.
  - intros Hname ->. destruct name; [reflexivity | contradiction].
  - intros t v Hname -> Ht Hv ->.
    destruct name as [name|]; [|contradiction].
    unfold_checks. rewrite Ht.
    destruct (Z.leb_spec v 0); [lia | reflexivity].
Qed.

Lemma X3_first_missing_macro_reported_witness :
  factory (MacroEnv None (Some (PPInteger 0)) None) =
    ([], inl (ErrorDirective
                "KALMAN_NAME needs to be defined prior to inclusion of this file.")) /\
  factory (MacroEnv (Some "imu") None (Some (PPInteger (-1)))) =
    ([], inl (ErrorDirective
                "KALMAN_NUM_STATES needs to be defined prior to inclusion of this file.")) /\
  factory (MacroEnv (Some "imu") (Some (PPInteger 4)) None) =
    ([], inl (ErrorDirective
                "KALMAN_NUM_INPUTS needs to be defined prior to inclusion of this file.")).
Proof.
  split; [|split].
  - apply (X3_first_missing_macro_reported
             (MacroEnv None (Some (PPInteger 0)) None)).
    reflexivity.
  - apply (X3_first_missing_macro_reported
             (MacroEnv (Some "imu") None (Some (PPInteger (-1))))).
    + discriminate.
    + reflexivity.
  - apply (X3_first_missing_macro_reported
             (MacroEnv (Some "imu") (Some (PPInteger 4)) None))
      with (ns := PPInteger 4) (v := 4).
    + discriminate.
    + reflexivity.
    + reflexivity.
    + lia.
    + reflexivity.
Defined.

(** ** The identifiers of one instance *)

(** X4.  Within one accepted translation no identifier is declared twice,
    whatever the name is: the buffers, the structure and the initialiser
    of an instance never redefine one another. *)
Theorem X4_instance_symbols_distinct
        (name : string) (ns ni : pp_token) (out : list emitted) :
  factory (define name ns ni) = (out, inr tt) ->
  NoDup (declared_symbols out).
Proof.
  intros Hrun.
  destruct (factory_symbols _ _ _ _ Hrun) as (w & _ & _ & -> & _).
  apply instance_symbols_NoDup.
Qed.

Lemma X4_instance_symbols_distinct_witness :
  NoDup (declared_symbols
           (fst (factory (define "a_init" (PPInteger 2) (PPInteger 1))))).
Proof.
  apply (X4_instance_symbols_distinct "a_init" (PPInteger 2) (PPInteger 1)).
  reflexivity.
Defined.

(** X5.  In an accepted translation the initialiser is the last
    declaration, and its call refers to exactly the arrays declared before
    it and to the one structure declared before it: no argument names a
    buffer that was not declared, and no declared buffer is left out of
    the call. *)
Theorem X5_call_refers_to_earlier_declarations
        (name : string) (ns ni : pp_token) (out : list emitted) :
  factory (define name ns ni) = (out, inr tt) ->
  exists earlier args,
    declarations out =
      (earlier ++ [InlineFunction (KALMAN_FUNCTION_NAME name "init") []
                     [Call "kalman_filter_initialize" args]])%list /\
    (forall id, In id (referenced_arrays args) <->
                In id (map fst (declared_arrays earlier))) /\
    referenced_structs args = declared_structs earlier.
Proof.
  intros Hrun.
  destruct (factory_success _ _ Hrun)
    as (name' & ns' & ni' & v & w & Henv & _ & _ & Hni & _ & Hinst).
  injection Henv as <- <- <-.
  destruct (instantiate_declarations name ns ni w Hni) as (out' & Hrun' & Hdecl).
  rewrite Hrun' in Hinst. injection Hinst as ->.
  rewrite Hdecl. unfold input_buffer_argument.
  destruct (w >? 0).
  - exists [StaticArray (symbol name TagA) ns ns;
            StaticArray (symbol name TagP) ns ns;
            StaticArray (symbol name Tagx) ns (PPInteger 1);
            StaticArray (symbol name TagB) ns ni;
            StaticArray (symbol name TagQ) ni ni;
            StaticArray (symbol name Tagu) ns (PPInteger 1);
            StaticStruct (symbol name TagAggregate)].
    eexists. split; [reflexivity|]. split; [|reflexivity].
    intros id. cbn. tauto.
  - exists [StaticArray (symbol name TagA) ns ns;
            StaticArray (symbol name TagP) ns ns;
            StaticArray (symbol name Tagx) ns (PPInteger 1);
            StaticStruct (symbol name TagAggregate)].
    eexists. split; [reflexivity|]. split; [|reflexivity].
    intros id. cbn. tauto.
Qed.

Lemma X5_call_refers_to_earlier_declarations_witness :
  exists earlier args,
    declarations (fst (factory (define "imu" (PPInteger 4) (PPInteger 2)))) =
      (earlier ++ [InlineFunction (KALMAN_FUNCTION_NAME "imu" "init") []
                     [Call "kalman_filter_initialize" args]])%list /\
    (forall id, In id (referenced_arrays args) <->
                In id (map fst (declared_arrays earlier))) /\
    referenced_structs args = declared_structs earlier.
Proof.
  apply (X5_call_refers_to_earlier_declarations
           "imu" (PPInteger 4) (PPInteger 2)).
  reflexivity.
Defined.

(** ** The u buffer *)

(** X6.  Every instance with inputs declares its u buffer with numStates
    elements, whatever the input count: the only array declared under the
    u identifier has that length.  When numInputs exceeds numStates the
    buffer is therefore shorter than the numInputs entries of the input
    vector. *)
Theorem X6_u_buffer_has_state_count_elements (name : string) (ns ni : Z) :
  0 < ns -> 0 < ni ->
  exists out,
    factory (define name (PPInteger ns) (PPInteger ni)) = (out, inr tt) /\
    (forall len, In (KALMAN_BUFFER_NAME name "u", len) (declared_arrays out)
                 <-> len = Some ns) /\
    (ns < ni ->
     forall len, In (KALMAN_BUFFER_NAME name "u", Some len) (declared_arrays out) ->
                 len < ni).
Proof.
  intros Hns Hni.
  destruct (factory_accepted name ns ni Hns ltac:(lia))
    as (out & Hrun & Harrays & _).
  exists out. split; [exact Hrun|].
  assert (Hlen : forall len,
             In (KALMAN_BUFFER_NAME name "u", len) (declared_arrays out)
             <-> len = Some ns).
  { intros len. rewrite Harrays.
    destruct (Z.gtb_spec ni 0) as [_|]; [|lia].
    change (KALMAN_BUFFER_NAME name "u") with (symbol name Tagu).
    rewrite c_mul_one_r. cbn [app In]. split.
    - intros H.
      repeat (destruct H as [H | H];
              [ pose proof (f_equal fst H) as Hsym;
                pose proof (f_equal snd H) as Hval;
                cbn [fst snd] in Hsym, Hval;
                first [ apply symbol_tag_injective in Hsym; discriminate Hsym
                      | symmetry; exact Hval ] | ]).
      contradiction.
    - intros ->. do 5 right. left. reflexivity. }
  split; [exact Hlen|].
  intros Hlt len Hin. apply Hlen in Hin. injection Hin as ->. exact Hlt.
Qed.

Lemma X6_u_buffer_has_state_count_elements_witness :
  exists out,
    factory (define "imu" (PPInteger 2) (PPInteger 5)) = (out, inr tt) /\
    (forall len, In (KALMAN_BUFFER_NAME "imu" "u", len) (declared_arrays out)
                 <-> len = Some 2) /\
    (2 < 5 ->
     forall len, In (KALMAN_BUFFER_NAME "imu" "u", Some len) (declared_arrays out) ->
                 len < 5).
Proof.
  apply (X6_u_buffer_has_state_count_elements "imu" 2 5); lia.
Defined.

(** ** Several instances in one translation unit *)

Lemma appends_only_ret {A : Type} (a : A) : appends_only (ret a).
Proof.
  intros out0. unfold ret. cbn. now rewrite app_nil_r.
Qed.

Lemma appends_only_fatal {A : Type} (d : diagnostic) :
  appends_only (@fatal A d).
Proof.
  intros out0. unfold fatal. cbn. now rewrite app_nil_r.
Qed.

Lemma appends_only_emit (e : emitted) : appends_only (emit e).
Proof.
  intros out0. reflexivity.
Qed.

Lemma appends_only_bind {A B : Type} (m : PP A) (k : A -> PP B) :
  appends_only m -> (forall a, appends_only (k a)) -> appends_only (bind m k).
Proof.
  intros Hm Hk out0. unfold bind.
  rewrite (Hm out0).
  destruct (m []) as [out1 [d | a]]; cbn [fst snd]; [reflexivity|].
  rewrite (Hk a (out0 ++ out1)%list), (Hk a out1).
  cbn [fst snd]. now rewrite app_assoc.
Qed.

Ltac appends_only_step :=
  first
    [ apply appends_only_ret
    | apply appends_only_fatal
    | apply appends_only_emit
    | apply appends_only_bind; [|intros]
    | match goal with
      | |- appends_only (if ?c then _ else _) => destruct c
      | |- appends_only (match ?x with _ => _ end) => destruct x
      end ].

Lemma pp_if_appends_only (t : pp_token) : appends_only (pp_if t).
Proof.
  unfold pp_if. repeat appends_only_step.
Qed.

Lemma instantiate_appends_only (name : string) (ns ni : pp_token) :
  appends_only (instantiate name ns ni).
Proof.
  unfold instantiate, input_buffers, pragma_message.
  repeat first [apply pp_if_appends_only | appends_only_step].
Qed.

Lemma kalman_factory_filter_appends_only (env : macro_env) :
  appends_only (kalman_factory_filter env).
Proof.
  unfold kalman_factory_filter, check_KALMAN_NAME, check_KALMAN_NUM_STATES,
    check_KALMAN_NUM_INPUTS, pp_error.
  repeat first [ apply instantiate_appends_only | apply pp_if_appends_only
               | appends_only_step ].
Qed.

Lemma declared_symbols_app (out1 out2 : list emitted) :
  declared_symbols (out1 ++ out2) =
    (declared_symbols out1 ++ declared_symbols out2)%list.
Proof.
  induction out1 as [|e out1 IH]; [reflexivity|].
  destruct e; cbn; now rewrite IH.
Qed.

Lemma NoDup_app_common {A : Type} (l1 l2 : list A) (a : A) :
  In a l1 -> In a l2 -> ~ NoDup (l1 ++ l2).
Proof.
  intros H1 H2 Hnd.
  apply in_split in H1 as (la & lb & ->).
  rewrite <- app_assoc in Hnd. cbn in Hnd.
  apply NoDup_remove_2 in Hnd. apply Hnd.
  rewrite app_assoc. apply in_or_app. right. exact H2.
Qed.

Lemma include_twice_accepted (env1 env2 : macro_env) (out1 out2 : list emitted) :
  factory env1 = (out1, inr tt) ->
  factory env2 = (out2, inr tt) ->
  include_twice env1 env2 = ((out1 ++ out2)%list, inr tt).
Proof.
  unfold include_twice, factory, bind. intros -> H2.
  rewrite kalman_factory_filter_appends_only, H2. reflexivity.
Qed.

Lemma aggregate_declared (name : string) (ns ni : pp_token) (out : list emitted)
      (tag : element_tag) :
  factory (define name ns ni) = (out, inr tt) ->
  tag = TagAggregate \/ tag = TagInitializer ->
  In (symbol name tag) (declared_symbols out).
Proof.
  intros Hrun Htag.
  destruct (factory_symbols _ _ _ _ Hrun) as (w & _ & _ & -> & _).
  apply in_map. unfold instance_tags.
  destruct Htag as [-> | ->]; destruct (w >? 0); cbn; tauto.
Qed.

(** X7.  Two accepted inclusions in one translation unit produce the
    output of the first followed by the output of the second.  When
    neither name contains the separator character, the unit declares no
    identifier twice exactly when the two names differ: instances of the
    same name always collide, whatever their dimensions. *)
Theorem X7_two_instances_in_one_unit
        (n1 n2 : string) (ns1 ni1 ns2 ni2 : pp_token)
        (out1 out2 : list emitted) :
  factory (define n1 ns1 ni1) = (out1, inr tt) ->
  factory (define n2 ns2 ni2) = (out2, inr tt) ->
  include_twice (define n1 ns1 ni1) (define n2 ns2 ni2)
    = ((out1 ++ out2)%list, inr tt) /\
  (separator_free n1 = true -> separator_free n2 = true ->
   (NoDup (declared_symbols (out1 ++ out2)) <-> n1 <> n2)).
Proof.
  intros Hrun1 Hrun2.
  split; [now apply include_twice_accepted|].
  intros Hfree1 Hfree2. rewrite declared_symbols_app. split.
  - intros Hnd ->.
    apply (NoDup_app_common _ _ (symbol n2 TagAggregate)) in Hnd; [exact Hnd| |].
    + apply (aggregate_declared _ _ _ _ _ Hrun1). now left.
    + apply (aggregate_declared _ _ _ _ _ Hrun2). now left.
  - intros Hneq.
    destruct (factory_symbols _ _ _ _ Hrun1) as (w1 & _ & _ & Hsym1 & _).
    destruct (factory_symbols _ _ _ _ Hrun2) as (w2 & _ & _ & Hsym2 & _).
    apply NoDup_app.
    + rewrite Hsym1. apply instance_symbols_NoDup.
    + rewrite Hsym2. apply instance_symbols_NoDup.
    + intros s Hin1 Hin2.
      destruct (factory_declared_symbols _ _ _ _ Hrun1 s Hin1) as [t1 ->].
      destruct (factory_declared_symbols _ _ _ _ Hrun2 _ Hin2) as [t2 Heq].
      apply Hneq. exact (symbol_name_injective n1 n2 t1 t2 Hfree1 Hfree2 Heq).
Qed.

Lemma X7_two_instances_in_one_unit_witness :
  include_twice (define "alpha" (PPInteger 3) (PPInteger 0))
                (define "beta" (PPInteger 2) (PPInteger 1))
    = ((fst (factory (define "alpha" (PPInteger 3) (PPInteger 0)))
        ++ fst (factory (define "beta" (PPInteger 2) (PPInteger 1))))%list,
       inr tt) /\
  (separator_free "alpha" = true -> separator_free "beta" = true ->
   (NoDup (declared_symbols
             (fst (factory (define "alpha" (PPInteger 3) (PPInteger 0)))
              ++ fst (factory (define "beta" (PPInteger 2) (PPInteger 1)))))
    <-> "alpha" <> "beta")).
Proof.
  apply (X7_two_instances_in_one_unit
           "alpha" "beta" (PPInteger 3) (PPInteger 0) (PPInteger 2) (PPInteger 1));
    reflexivity.
Defined.

(** X8.  A name that extends another one by [_init] always collides with
    it: the structure of the longer name has the identifier of the
    initialiser of the shorter one, so a unit that includes the header
    for both names declares that identifier twice.  In the same way the
    structure of [name_E_buffer] has the identifier of the buffer [E] of
    [name]. *)
Theorem X8_extended_name_collides
        (name : string) (ns1 ni1 ns2 ni2 : pp_token)
        (out1 out2 : list emitted) :
  factory (define name ns1 ni1) = (out1, inr tt) ->
  factory (define (name ++ "_init") ns2 ni2) = (out2, inr tt) ->
  KALMAN_STRUCT_NAME (name ++ "_init") = KALMAN_FUNCTION_NAME name "init" /\
  (forall element,
      KALMAN_STRUCT_NAME (name ++ "_" ++ element ++ "_buffer")
      = KALMAN_BUFFER_NAME name element) /\
  include_twice (define name ns1 ni1) (define (name ++ "_init") ns2 ni2)
    = ((out1 ++ out2)%list, inr tt) /\
  ~ NoDup (declared_symbols (out1 ++ out2)).
Proof.
  intros Hrun1 Hrun2.
  assert (Hfun : forall text,
             KALMAN_STRUCT_NAME (name ++ "_" ++ text)
             = KALMAN_FUNCTION_NAME name text).
  { intros text.
    unfold KALMAN_STRUCT_NAME, KALMAN_FUNCTION_NAME, KALMAN_BASENAME_HELPER,
      KALMAN_FILTER_BASENAME, KALMAN_FILTER_BASENAME_HELPER, __CONCAT.
    now rewrite !append_assoc. }
  split; [exact (Hfun "init")|].
  split; [intros element; exact (Hfun (element ++ "_buffer"))|].
  split; [now apply include_twice_accepted|].
  rewrite declared_symbols_app.
  apply (NoDup_app_common _ _ (symbol name TagInitializer)).
  - apply (aggregate_declared _ _ _ _ _ Hrun1). now right.
  - change (symbol name TagInitializer) with (KALMAN_FUNCTION_NAME name "init").
    rewrite <- (Hfun "init").
    apply (aggregate_declared _ _ _ _ TagAggregate Hrun2). now left.
Qed.

Lemma X8_extended_name_collides_witness :
  KALMAN_STRUCT_NAME ("a" ++ "_init") = KALMAN_FUNCTION_NAME "a" "init" /\
  (forall element,
      KALMAN_STRUCT_NAME ("a" ++ "_" ++ element ++ "_buffer")
      = KALMAN_BUFFER_NAME "a" element) /\
  include_twice (define "a" (PPInteger 1) (PPInteger 0))
                (define ("a" ++ "_init") (PPInteger 2) (PPInteger 3))
    = ((fst (factory (define "a" (PPInteger 1) (PPInteger 0)))
        ++ fst (factory (define "a_init" (PPInteger 2) (PPInteger 3))))%list,
       inr tt) /\
  ~ NoDup (declared_symbols
             (fst (factory (define "a" (PPInteger 1) (PPInteger 0)))
              ++ fst (factory (define "a_init" (PPInteger 2) (PPInteger 3))))).
Proof.
  apply (X8_extended_name_collides
           "a" (PPInteger 1) (PPInteger 0) (PPInteger 2) (PPInteger 3));
    reflexivity.
Defined.

(** ** Well-formed identifiers *)



(** ** The compile-time notes *)

Lemma announced_declaration_plain (intro id : string) (d : emitted)
      (rest : list emitted) :
  declared_ident d = Some id ->
  announced rest ->
  announced (PragmaMessage (intro ++ id) :: d :: rest).
Proof.
  intros Hid Hrest.
  replace (intro ++ id) with (intro ++ id ++ "")
    by now rewrite append_empty_r.
  now apply announced_declaration.
Qed.

Lemma function_note (name : string) :
  KALMAN_FUNCTION_NAME name "init()" = KALMAN_FUNCTION_NAME name "init" ++ "()".
Proof.
  unfold KALMAN_FUNCTION_NAME. now rewrite append_assoc.
Qed.

(** X10.  In an accepted translation every declaration (each array, the
    structure and the initialiser) comes directly after a [#pragma message]
    note whose text contains the identifier being declared. *)
Theorem X10_declarations_are_announced
        (name : string) (ns ni : pp_token) (out : list emitted) :
  factory (define name ns ni) = (out, inr tt) ->
  announced out.
Proof.
  intros Hrun.
  destruct (factory_success _ _ Hrun)
    as (name' & ns' & ni' & v & w & Henv & _ & _ & Hni & _ & Hinst).
  injection Henv as <- <- <-.
  unfold instantiate, input_buffers, pragma_message, pp_if,
    bind, ret, fatal, emit in Hinst.
  rewrite Hni in Hinst.
  destruct (w >? 0); apply (f_equal fst) in Hinst; cbn [app fst] in Hinst;
    rewrite <- Hinst, function_note;
    repeat first
      [ apply announced_done
      | apply announced_declaration_plain; [reflexivity|]
      | apply announced_declaration; [reflexivity|]
      | apply announced_note ].
Qed.

Lemma X10_declarations_are_announced_witness :
  announced (fst (factory (define "imu" (PPInteger 4) (PPInteger 2)))).
Proof.
  apply (X10_declarations_are_announced "imu" (PPInteger 4) (PPInteger 2)).
  reflexivity.
Defined.

(** ** Array bounds *)


